(** * TestFramework/Renderer/Renderer.h: frame lifecycle of the Renderer

    A shallow embedding of the [CameraState] struct and the [Renderer] base
    class.  The members and the inline member functions of the header are
    transcribed one for one.  The out-of-line member functions ([BeginFrame],
    [EndFrame], [OnWindowResize]) have no body in the header; they are
    modelled from the specification and every such definition says so.

    Numbers.  [int] is [Z]; [uint] is [Z] reduced modulo [2^32] where the
    code computes with it; [float] (and the components of [Vec3], [RVec3],
    [Vec4]) are idealised as real numbers, so rounding is not modelled. *)

From Stdlib Require Import ZArith List Bool Lia Reals Lra.
Import ListNotations.

Open Scope Z_scope.

(** ** Math types used by the header (Jolt/Math)

    The header uses [Vec3], [RVec3], [Vec4], [Mat44], [RVec3::sZero] and
    [DegreesToRadians] and includes none of their declarations. *)

Module Math.

Record Vec3 : Type := mkVec3 { v3X : R; v3Y : R; v3Z : R }.

(** [RVec3] is the high-precision position type. *)
Record RVec3 : Type := mkRVec3 { rvX : R; rvY : R; rvZ : R }.

Record Vec4 : Type := mkVec4 { v4X : R; v4Y : R; v4Z : R; v4W : R }.

(** Column-major 4x4 matrix. *)
Record Mat44 : Type := mkMat44 { col0 : Vec4; col1 : Vec4; col2 : Vec4; col3 : Vec4 }.

(** Modelled from the spec: [RVec3::sZero()] is declared outside this
    header; it is the zero vector the specification's scenario calls the
    origin. *)
Definition RVec3_sZero : RVec3 := mkRVec3 0 0 0.

(** Modelled from the spec: the constant [JPH_PI] is declared outside this
    header; it is the pi of the specification's bound on the field of
    view. *)
Definition JPH_PI : R := PI.

(** Modelled from the spec: [DegreesToRadians] is declared outside this
    header.  The specification keeps the field of view in radians and
    gives the scenario's as 70 degrees; the conversion multiplies by
    pi / 180. *)
Definition DegreesToRadians (inV : R) : R := (inV * (JPH_PI / 180))%R.

(** Cross product, used to say that two directions are not parallel. *)
Definition cross (a b : Vec3) : Vec3 :=
  mkVec3 (v3Y a * v3Z b - v3Z a * v3Y b)
         (v3Z a * v3X b - v3X a * v3Z b)
         (v3X a * v3Y b - v3Y a * v3X b).

Definition Vec3_zero : Vec3 := mkVec3 0 0 0.

End Math.
Import Math.

(** ** Integer types *)

Definition uint_modulus : Z := 2 ^ 32.

(** Addition on [uint] wraps around. *)
Definition uint_add (a b : Z) : Z := (a + b) mod uint_modulus.

(** ** Camera setup (Renderer.h, struct CameraState) *)

Record CameraState : Type := mkCameraState {
  mPos : RVec3;      (* Camera position *)
  mForward : Vec3;   (* Camera forward vector *)
  mUp : Vec3;        (* Camera up vector *)
  mFOVY : R          (* Field of view in radians in up direction *)
}.

(** [CameraState::CameraState()] *)
Definition CameraState_new : CameraState :=
  {| mPos := RVec3_sZero;
     mForward := mkVec3 0 0 (-1);
     mUp := mkVec3 0 1 0;
     mFOVY := DegreesToRadians 70 |}.

(** ** Outcomes of a call

    A call returns a value, fails with one of the errors the specification
    names, or trips an assertion. *)

Inductive Error : Type :=
| AlreadyInFrame
| NotInFrame
| InvalidCameraConfig.

Inductive outcome (A : Type) : Type :=
| Ok (a : A)
| Err (e : Error)
| AssertFailed.

Arguments Ok {A} a.
Arguments Err {A} e.
Arguments AssertFailed {A}.

(** Modelled from the spec: the macro [JPH_ASSERT] is defined outside this
    header (Jolt/Core/IssueReporting.h).  The specification calls a failed
    assertion a fatal, non-recoverable fault, so a false condition ends the
    call in [AssertFailed] and a true one lets it continue. *)
Definition JPH_ASSERT {A : Type} (cond : bool) (k : outcome A) : outcome A :=
  if cond then k else AssertFailed.

(** ** Constants of the class *)

(** How many frames our pipeline is *)
Definition cFrameCount : Z := 2.

(** Size of the shadow map will be cShadowMapSize x cShadowMapSize pixels *)
Definition cShadowMapSize : Z := 4096.

Definition ShadowMapDimensions : Z * Z := (cShadowMapSize, cShadowMapSize).

(** ** Constant buffers (protected structs of the class) *)

Record VertexShaderConstantBuffer : Type := mkVSBuffer {
  mView : Mat44;
  mProjection : Mat44;
  mLightView : Mat44;
  mLightProjection : Mat44
}.

Record PixelShaderConstantBuffer : Type := mkPSBuffer {
  mCameraPos : Vec4;
  mLightPos : Vec4
}.

(** ** The Renderer *)

Section RendererClass.

(** [Frustum] is declared in Renderer/Frustum.h, which is not part of this
    header; the development is parametric in it. *)
Variable Frustum : Type.

(** The data members of the class, in declaration order.  The platform
    handles ([mhWnd]; [mDisplay], [mWindow], [mWmDeleteWindow],
    [mEventListener]) sit under conditional compilation and carry no
    state any member function of this header reads; they are left out. *)
Record Renderer : Type := mkRenderer {
  mWindowWidth : Z;
  mWindowHeight : Z;
  mPerspectiveYSign : R;  (* Sign for the Y coordinate in the projection matrix (1 for DX, -1 for Vulkan) *)
  mInFrame : bool;        (* If we're within a BeginFrame() / EndFrame() pair *)
  mCameraState : CameraState;
  mBaseOffset : RVec3;    (* Offset to subtract from the camera position to deal with large worlds *)
  mCameraFrustum : Frustum;
  mLightFrustum : Frustum;
  mFrameIndex : Z;        (* Current frame index (0 or 1) *)
  mVSBuffer : VertexShaderConstantBuffer;
  mVSBufferOrtho : VertexShaderConstantBuffer;
  mPSBuffer : PixelShaderConstantBuffer
}.

(** *** Construction

    The default member initialisers give the window size, the Y sign, the
    in-frame flag, the base offset and the frame index.  [mCameraState] is
    built by [CameraState()].  The frustums and the constant buffers have no
    initialiser in the header: whatever they hold after construction is a
    parameter. *)
Record Indeterminate : Type := mkIndeterminate {
  iCameraFrustum : Frustum;
  iLightFrustum : Frustum;
  iVSBuffer : VertexShaderConstantBuffer;
  iVSBufferOrtho : VertexShaderConstantBuffer;
  iPSBuffer : PixelShaderConstantBuffer
}.

Definition Renderer_new (u : Indeterminate) : Renderer :=
  {| mWindowWidth := 1920;
     mWindowHeight := 1080;
     mPerspectiveYSign := 1;
     mInFrame := false;
     mCameraState := CameraState_new;
     mBaseOffset := RVec3_sZero;
     mCameraFrustum := iCameraFrustum u;
     mLightFrustum := iLightFrustum u;
     mFrameIndex := 0;
     mVSBuffer := iVSBuffer u;
     mVSBufferOrtho := iVSBufferOrtho u;
     mPSBuffer := iPSBuffer u |}.

(** *** Inline member functions *)

(** Get window size *)
Definition GetWindowWidth (r : Renderer) : Z := mWindowWidth r.
Definition GetWindowHeight (r : Renderer) : Z := mWindowHeight r.

(** Get the camera state / frustum (only valid between BeginFrame() / EndFrame()) *)
Definition GetCameraState (r : Renderer) : outcome CameraState :=
  JPH_ASSERT (mInFrame r) (Ok (mCameraState r)).

Definition GetCameraFrustum (r : Renderer) : outcome Frustum :=
  JPH_ASSERT (mInFrame r) (Ok (mCameraFrustum r)).

(** Offset relative to which the world is rendered *)
Definition GetBaseOffset (r : Renderer) : RVec3 := mBaseOffset r.

Definition SetBaseOffset (inOffset : RVec3) (r : Renderer) : Renderer :=
  {| mWindowWidth := mWindowWidth r;
     mWindowHeight := mWindowHeight r;
     mPerspectiveYSign := mPerspectiveYSign r;
     mInFrame := mInFrame r;
     mCameraState := mCameraState r;
     mBaseOffset := inOffset;
     mCameraFrustum := mCameraFrustum r;
     mLightFrustum := mLightFrustum r;
     mFrameIndex := mFrameIndex r;
     mVSBuffer := mVSBuffer r;
     mVSBufferOrtho := mVSBufferOrtho r;
     mPSBuffer := mPSBuffer r |}.

(** Get the light frustum (only valid between BeginFrame() / EndFrame()) *)
Definition GetLightFrustum (r : Renderer) : outcome Frustum :=
  JPH_ASSERT (mInFrame r) (Ok (mLightFrustum r)).

(** Which frame is currently rendering *)
Definition GetCurrentFrameIndex (r : Renderer) : outcome Z :=
  JPH_ASSERT (mInFrame r) (Ok (mFrameIndex r)).

End RendererClass.

Arguments mkRenderer {Frustum}.
Arguments mWindowWidth {Frustum} r.
Arguments mWindowHeight {Frustum} r.
Arguments mPerspectiveYSign {Frustum} r.
Arguments mInFrame {Frustum} r.
Arguments mCameraState {Frustum} r.
Arguments mBaseOffset {Frustum} r.
Arguments mCameraFrustum {Frustum} r.
Arguments mLightFrustum {Frustum} r.
Arguments mFrameIndex {Frustum} r.
Arguments mVSBuffer {Frustum} r.
Arguments mVSBufferOrtho {Frustum} r.
Arguments mPSBuffer {Frustum} r.
Arguments mkIndeterminate {Frustum}.
Arguments Renderer_new {Frustum} u.
Arguments GetWindowWidth {Frustum} r.
Arguments GetWindowHeight {Frustum} r.
Arguments GetCameraState {Frustum} r.
Arguments GetCameraFrustum {Frustum} r.
Arguments GetBaseOffset {Frustum} r.
Arguments SetBaseOffset {Frustum} inOffset r.
Arguments GetLightFrustum {Frustum} r.
Arguments GetCurrentFrameIndex {Frustum} r.

(** ** A state-and-failure monad for the out-of-line member functions

    A computation takes the state and returns an outcome together with the
    state it leaves behind; [throw] leaves the state as it found it. *)

Definition M (S A : Type) : Type := S -> outcome A * S.

Definition ret {S A : Type} (a : A) : M S A := fun s => (Ok a, s).

Definition bind {S A B : Type} (c : M S A) (k : A -> M S B) : M S B :=
  fun s =>
    match c s with
    | (Ok a, s') => k a s'
    | (Err e, s') => (Err e, s')
    | (AssertFailed, s') => (AssertFailed, s')
    end.

Definition get {S : Type} : M S S := fun s => (Ok s, s).
Definition put {S : Type} (s : S) : M S unit := fun _ => (Ok tt, s).
Definition throw {S A : Type} (e : Error) : M S A := fun s => (Err e, s).

(** Run a pure, possibly failing computation inside the monad. *)
Definition lift {S A : Type} (o : outcome A) : M S A := fun s => (o, s).

Declare Scope frame_scope.
Delimit Scope frame_scope with frame.
Notation "x <- c ;; k" := (bind c (fun x => k))
  (at level 61, c at next level, right associativity) : frame_scope.
Notation "c ;; k" := (bind c (fun _ => k))
  (at level 61, right associativity) : frame_scope.

(** State left behind by a call, whatever its outcome. *)
Definition after {S A : Type} (c : M S A) (s : S) : S := snd (c s).

(** Outcome of a call. *)
Definition result {S A : Type} (c : M S A) (s : S) : outcome A := fst (c s).

(** ** Frustum calculation and constant buffers

    The header declares the frustum and buffer members but none of the
    functions that fill them, and the specification leaves the light-frustum
    fitting open.  They are the operations of an interface; every theorem
    below holds for all of its implementations. *)

Class FrameMath (Frustum : Type) : Type := {
  (** planes of the symmetric perspective frustum of a camera whose field of
      view has been accepted, for a window of the given width and height *)
  PerspectiveFrustum : CameraState -> Z -> Z -> Frustum;
  (** orthographic frustum of the shadow pass, from the world scale and the
      camera frustum *)
  ComputeLightFrustum : R -> Frustum -> Frustum;
  (** main, orthographic and pixel-shader buffers from: camera, world scale,
      camera frustum, light frustum, base offset, Y sign, width, height *)
  BuildConstantBuffers :
    CameraState -> R -> Frustum -> Frustum -> RVec3 -> R -> Z -> Z ->
    VertexShaderConstantBuffer * VertexShaderConstantBuffer * PixelShaderConstantBuffer
}.

(** Modelled from the spec: the check on the field of view has no code in
    Renderer.h.  Section 4.1: a degenerate field of view, at most 0 or at
    least pi, is rejected. *)
Definition degenerate_fov (fovy : R) : bool :=
  if Rle_dec fovy 0 then true
  else if Rle_dec PI fovy then true
  else false.


Section FrameLifecycle.

Context {Frustum : Type} {FM : FrameMath Frustum}.

(** Modelled from the spec: [ComputeCameraFrustum] is not in Renderer.h.
    Section 4.1: from the camera state and the window width and height it
    gives the camera frustum, and it fails with [InvalidCameraConfig] on a
    degenerate field of view. *)
Definition ComputeCameraFrustum (inCamera : CameraState) (w h : Z) : outcome Frustum :=
  if degenerate_fov (mFOVY inCamera) then Err InvalidCameraConfig
  else Ok (PerspectiveFrustum inCamera w h).

(** Modelled from the spec: the header's class has no member that could
    hold a resize that arrived during a frame.  Section 4.4 says such a
    resize is queued, so the controller pairs the [Renderer] with one slot
    for the queued window size.  Section 4.4 has BeginFrame advance the
    frame index modulo the pipeline depth, and section 8 has the frames
    after construction observe the indices 0, 1, 0, starting at the index
    the header's initialiser gives; the controller therefore keeps the index
    the next frame is to get. *)
Record Controller : Type := mkController {
  rnd : Renderer Frustum;
  queuedResize : option (Z * Z);
  nextFrameIndex : Z
}.

(** Controller around a freshly constructed Renderer: nothing is queued,
    and the first frame gets the constructed frame index. *)
Definition Controller_new (u : Indeterminate Frustum) : Controller :=
  {| rnd := Renderer_new u;
     queuedResize := None;
     nextFrameIndex := mFrameIndex (Renderer_new u) |}.

(** Window size the next frame is rendered at: a queued resize, when there
    is one, else the current size. *)
Definition next_window_size (c : Controller) : Z * Z :=
  match queuedResize c with
  | Some wh => wh
  | None => (mWindowWidth (rnd c), mWindowHeight (rnd c))
  end.

(** Modelled from the spec: the body of [Renderer::BeginFrame] is not in
    Renderer.h.  Section 4.4: it fails with [AlreadyInFrame] when called
    in-frame; otherwise it advances the frame index modulo the pipeline
    depth, recomputes the camera frustum and the light frustum, rebuilds
    the constant buffers and sets the in-frame flag.  The frame gets the
    index that was next in the rotation and the rotation moves on by one,
    so that the first frame after construction has index 0 (section 8).
    A resize queued during the previous frame is applied here, at the
    frame boundary, and the frustums are computed against that size.  The
    camera frustum is computed by [ComputeCameraFrustum], whose failure
    fails the call. *)
Definition BeginFrame (inCamera : CameraState) (inWorldScale : R) : M Controller unit :=
  (c <- get ;;
   let r := rnd c in
   if mInFrame r then throw AlreadyInFrame
   else
     let (w, h) := next_window_size c in
     camera_frustum <- lift (ComputeCameraFrustum inCamera w h) ;;
     let light_frustum := ComputeLightFrustum inWorldScale camera_frustum in
     let '(vs, vs_ortho, ps) :=
       BuildConstantBuffers inCamera inWorldScale camera_frustum light_frustum
                            (mBaseOffset r) (mPerspectiveYSign r) w h in
     put {| rnd :=
              {| mWindowWidth := w;
                 mWindowHeight := h;
                 mPerspectiveYSign := mPerspectiveYSign r;
                 mInFrame := true;
                 mCameraState := inCamera;
                 mBaseOffset := mBaseOffset r;
                 mCameraFrustum := camera_frustum;
                 mLightFrustum := light_frustum;
                 mFrameIndex := nextFrameIndex c;
                 mVSBuffer := vs;
                 mVSBufferOrtho := vs_ortho;
                 mPSBuffer := ps |};
            queuedResize := None;
            nextFrameIndex := uint_add (nextFrameIndex c) 1 mod cFrameCount |})%frame.

(** The renderer with only its in-frame flag changed. *)
Definition set_in_frame (b : bool) (r : Renderer Frustum) : Renderer Frustum :=
  {| mWindowWidth := mWindowWidth r;
     mWindowHeight := mWindowHeight r;
     mPerspectiveYSign := mPerspectiveYSign r;
     mInFrame := b;
     mCameraState := mCameraState r;
     mBaseOffset := mBaseOffset r;
     mCameraFrustum := mCameraFrustum r;
     mLightFrustum := mLightFrustum r;
     mFrameIndex := mFrameIndex r;
     mVSBuffer := mVSBuffer r;
     mVSBufferOrtho := mVSBufferOrtho r;
     mPSBuffer := mPSBuffer r |}.

(** Modelled from the spec: the body of [Renderer::EndFrame] is not in
    Renderer.h.  Section 4.4: it fails with [NotInFrame] when no
    BeginFrame is outstanding, and otherwise clears the in-frame flag; the
    frame index computed by BeginFrame stays. *)
Definition EndFrame : M Controller unit :=
  (c <- get ;;
   if mInFrame (rnd c)
   then put {| rnd := set_in_frame false (rnd c);
               queuedResize := queuedResize c;
               nextFrameIndex := nextFrameIndex c |}
   else throw NotInFrame)%frame.

(** The renderer with only its window size changed. *)
Definition set_window_size (w h : Z) (r : Renderer Frustum) : Renderer Frustum :=
  {| mWindowWidth := w;
     mWindowHeight := h;
     mPerspectiveYSign := mPerspectiveYSign r;
     mInFrame := mInFrame r;
     mCameraState := mCameraState r;
     mBaseOffset := mBaseOffset r;
     mCameraFrustum := mCameraFrustum r;
     mLightFrustum := mLightFrustum r;
     mFrameIndex := mFrameIndex r;
     mVSBuffer := mVSBuffer r;
     mVSBufferOrtho := mVSBufferOrtho r;
     mPSBuffer := mPSBuffer r |}.

(** Modelled from the spec: the body of [Renderer::OnWindowResize] is not
    in Renderer.h.  The member function takes no argument: the new size is
    what the platform window reports, here [w] and [h].  Section 4.4:
    outside a frame it updates the window dimensions; inside a frame the
    resize is queued and applied at the next frame boundary.  BeginFrame
    recomputes the frustums every frame, so there is no cached projection
    to invalidate.  A resize applied directly replaces an older queued
    one. *)
Definition OnWindowResize (w h : Z) : M Controller unit :=
  (c <- get ;;
   if mInFrame (rnd c)
   then put {| rnd := rnd c;
               queuedResize := Some (w, h);
               nextFrameIndex := nextFrameIndex c |}
   else put {| rnd := set_window_size w h (rnd c);
               queuedResize := None;
               nextFrameIndex := nextFrameIndex c |})%frame.

(** The inline setter, as a call on the controller. *)
Definition SetBaseOffsetM (inOffset : RVec3) : M Controller unit :=
  (c <- get ;;
   put {| rnd := SetBaseOffset inOffset (rnd c);
          queuedResize := queuedResize c;
          nextFrameIndex := nextFrameIndex c |})%frame.

(** A const accessor, as a call on the controller. *)
Definition query {A : Type} (f : Renderer Frustum -> outcome A) : M Controller A :=
  (c <- get ;; lift (f (rnd c)))%frame.

(** What a frame in flight works with: window size, camera, frustums,
    frame index and constant buffers. *)
Definition in_flight (r : Renderer Frustum) :=
  (GetWindowWidth r, GetWindowHeight r, mCameraState r,
   (mCameraFrustum r, mLightFrustum r), mFrameIndex r,
   (mVSBuffer r, mVSBufferOrtho r, mPSBuffer r)).

(** *** Calls and call sequences *)

Inductive Call : Type :=
| CallBeginFrame (inCamera : CameraState) (inWorldScale : R)
| CallEndFrame
| CallOnWindowResize (w h : Z)
| CallSetBaseOffset (inOffset : RVec3)
| CallGetWindowWidth
| CallGetWindowHeight
| CallGetCameraState
| CallGetCameraFrustum
| CallGetLightFrustum
| CallGetBaseOffset
| CallGetCurrentFrameIndex.

(** State left by one call. *)
Definition exec (k : Call) (c : Controller) : Controller :=
  match k with
  | CallBeginFrame cam ws => after (BeginFrame cam ws) c
  | CallEndFrame => after EndFrame c
  | CallOnWindowResize w h => after (OnWindowResize w h) c
  | CallSetBaseOffset v => after (SetBaseOffsetM v) c
  | CallGetWindowWidth => after (query (fun r => Ok (GetWindowWidth r))) c
  | CallGetWindowHeight => after (query (fun r => Ok (GetWindowHeight r))) c
  | CallGetCameraState => after (query GetCameraState) c
  | CallGetCameraFrustum => after (query GetCameraFrustum) c
  | CallGetLightFrustum => after (query GetLightFrustum) c
  | CallGetBaseOffset => after (query (fun r => Ok (GetBaseOffset r))) c
  | CallGetCurrentFrameIndex => after (query GetCurrentFrameIndex) c
  end.

(** State left by a sequence of calls, first call first. *)
Fixpoint run (ks : list Call) (c : Controller) : Controller :=
  match ks with
  | [] => c
  | k :: ks' => run ks' (exec k c)
  end.

Definition is_SetBaseOffset (k : Call) : bool :=
  match k with
  | CallSetBaseOffset _ => true
  | _ => false
  end.

Definition is_EndFrame (k : Call) : bool :=
  match k with
  | CallEndFrame => true
  | _ => false
  end.

Definition is_OnWindowResize (k : Call) : bool :=
  match k with
  | CallOnWindowResize _ _ => true
  | _ => false
  end.

(** No call of the sequence satisfies [p]. *)
Definition none_of (p : Call -> bool) (ks : list Call) : bool :=
  forallb (fun k => negb (p k)) ks.

(** One complete frame: BeginFrame, then EndFrame. *)
Definition frame (f : CameraState * R) : list Call :=
  [CallBeginFrame (fst f) (snd f); CallEndFrame].

(** Complete frames, one per element of [fs]. *)
Definition frames (fs : list (CameraState * R)) : list Call :=
  flat_map frame fs.


End FrameLifecycle.

Arguments Controller Frustum : clear implicits.

(** Modelled from the spec: the camera of the scenario of section 8, at the
    origin, looking along (0,0,-1) with up (0,1,0) and a vertical field of
    view of 70 degrees. *)
Definition scenario_camera : CameraState :=
  {| mPos := mkRVec3 0 0 0;
     mForward := mkVec3 0 0 (-1);
     mUp := mkVec3 0 1 0;
     mFOVY := (70 * PI / 180)%R |}.

(** ** A small implementation of the interface

    A frustum is recorded by what it was computed from, and the buffers are
    filled with zeros.  It serves to run the model on concrete calls. *)

Module Sample.

Inductive Frustum : Type :=
| Unset
| OfCamera (cam : CameraState) (w h : Z)
| OfLight (scale : R) (f : Frustum).

Definition zero4 : Vec4 := mkVec4 0 0 0 0.
Definition zero44 : Mat44 := mkMat44 zero4 zero4 zero4 zero4.
Definition zeroVS : VertexShaderConstantBuffer := mkVSBuffer zero44 zero44 zero44 zero44.
Definition zeroPS : PixelShaderConstantBuffer := mkPSBuffer zero4 zero4.

#[global] Instance math : FrameMath Frustum :=
  {| PerspectiveFrustum := OfCamera;
     ComputeLightFrustum := OfLight;
     BuildConstantBuffers := fun _ _ _ _ _ _ _ _ => (zeroVS, zeroVS, zeroPS) |}.

Definition unset : Indeterminate Frustum :=
  mkIndeterminate Unset Unset zeroVS zeroVS zeroPS.

(** Controller around a freshly constructed renderer. *)
Definition fresh : Controller Frustum := Controller_new unset.

(** A controller in the middle of its first frame. *)
Definition in_frame : Controller Frustum :=
  {| rnd := set_in_frame true (Renderer_new unset);
     queuedResize := None;
     nextFrameIndex := 1 |}.

(** Calls made inside a frame after a resize to 800 by 600 arrived. *)
Definition calls_after_resize : list Call :=
  [CallGetWindowWidth; CallSetBaseOffset (mkRVec3 1 2 3);
   CallBeginFrame CameraState_new 1%R; CallGetCameraFrustum].

Definition resized_in_frame : Controller Frustum :=
  run calls_after_resize (after (OnWindowResize 800 600) in_frame).

(** A camera with a field of view of zero. *)
Definition flat_camera : CameraState :=
  {| mPos := RVec3_sZero;
     mForward := mkVec3 0 0 (-1);
     mUp := mkVec3 0 1 0;
     mFOVY := 0 |}.

End Sample.

(** ** Sequences of calls of the inline member functions

    The member functions the header defines in the class body, run one after
    the other on a [Renderer].  A failed assertion ends the sequence. *)

Definition dot (a b : Vec3) : R :=
  (v3X a * v3X b + v3Y a * v3Y b + v3Z a * v3Z b)%R.

Section InlineCalls.

Context {Frustum : Type}.

(** What a call hands back to its caller. *)
Inductive Returned : Type :=
| RetInt (n : Z)
| RetUInt (n : Z)
| RetCameraState (s : CameraState)
| RetFrustum (f : Frustum)
| RetRVec3 (v : RVec3)
| RetVoid.

Inductive InlineCall : Type :=
| InlGetWindowWidth
| InlGetWindowHeight
| InlGetCameraState
| InlGetCameraFrustum
| InlGetBaseOffset
| InlSetBaseOffset (inOffset : RVec3)
| InlGetLightFrustum
| InlGetCurrentFrameIndex.

(** The member functions whose body starts with [JPH_ASSERT(mInFrame)]. *)
Definition is_frame_scoped (k : InlineCall) : bool :=
  match k with
  | InlGetCameraState | InlGetCameraFrustum
  | InlGetLightFrustum | InlGetCurrentFrameIndex => true
  | _ => false
  end.

Definition inline_call (k : InlineCall) : M (Renderer Frustum) Returned :=
  match k with
  | InlGetWindowWidth => (r <- get ;; ret (RetInt (GetWindowWidth r)))%frame
  | InlGetWindowHeight => (r <- get ;; ret (RetInt (GetWindowHeight r)))%frame
  | InlGetCameraState =>
      (r <- get ;; s <- lift (GetCameraState r) ;; ret (RetCameraState s))%frame
  | InlGetCameraFrustum =>
      (r <- get ;; f <- lift (GetCameraFrustum r) ;; ret (RetFrustum f))%frame
  | InlGetBaseOffset => (r <- get ;; ret (RetRVec3 (GetBaseOffset r)))%frame
  | InlSetBaseOffset v => (r <- get ;; put (SetBaseOffset v r) ;; ret RetVoid)%frame
  | InlGetLightFrustum =>
      (r <- get ;; f <- lift (GetLightFrustum r) ;; ret (RetFrustum f))%frame
  | InlGetCurrentFrameIndex =>
      (r <- get ;; n <- lift (GetCurrentFrameIndex r) ;; ret (RetUInt n))%frame
  end.

(** The calls in order; the values they returned, in the same order. *)
Fixpoint run_inline (ks : list InlineCall) : M (Renderer Frustum) (list Returned) :=
  match ks with
  | [] => ret []
  | k :: ks' =>
      (v <- inline_call k ;; vs <- run_inline ks' ;; ret (v :: vs))%frame
  end.

(** The argument of the last SetBaseOffset of the sequence, [d] when there
    is none. *)
Fixpoint last_offset (ks : list InlineCall) (d : RVec3) : RVec3 :=
  match ks with
  | [] => d
  | InlSetBaseOffset v :: ks' => last_offset ks' v
  | _ :: ks' => last_offset ks' d
  end.

Definition no_frame_scoped (ks : list InlineCall) : bool :=
  forallb (fun k => negb (is_frame_scoped k)) ks.

End InlineCalls.

Arguments Returned Frustum : clear implicits.
Arguments InlineCall : clear implicits.

(** ** Window handles under JPH_PLATFORM_LINUX

    The members and inline functions of the Linux branch of the conditional
    compilation.  The Xlib types are parameters. *)

Section X11.

Variables (Display Window Atom EventListener : Type).

Record X11Members : Type := mkX11Members {
  mDisplay : Display;
  mWindow : Window;
  mWmDeleteWindow : Atom;
  mEventListener : EventListener
}.

(** Access to the window handle *)
Definition GetDisplay (m : X11Members) : Display := mDisplay m.
Definition GetWindow (m : X11Members) : Window := mWindow m.

Definition SetEventListener (inListener : EventListener) (m : X11Members) : X11Members :=
  {| mDisplay := mDisplay m;
     mWindow := mWindow m;
     mWmDeleteWindow := mWmDeleteWindow m;
     mEventListener := inListener |}.

(** Register the listeners of [ls] one after the other. *)
Definition register_all (ls : list EventListener) (m : X11Members) : X11Members :=
  fold_left (fun m' l => SetEventListener l m') ls m.

End X11.

Arguments mDisplay {Display Window Atom EventListener} _.
Arguments mWindow {Display Window Atom EventListener} _.
Arguments mWmDeleteWindow {Display Window Atom EventListener} _.
Arguments mEventListener {Display Window Atom EventListener} _.
Arguments GetDisplay {Display Window Atom EventListener} m.
Arguments GetWindow {Display Window Atom EventListener} m.
Arguments SetEventListener {Display Window Atom EventListener} inListener m.
Arguments register_all {Display Window Atom EventListener} ls m.

(** * Properties *)

Ltac unfold_calls :=
  unfold after, result, exec, BeginFrame, EndFrame, OnWindowResize, SetBaseOffsetM,
    query, bind, get, put, throw, lift.

(** ** Field of view *)

Lemma degenerate_fov_true (fovy : R) :
  degenerate_fov fovy = true <-> (fovy <= 0 \/ PI <= fovy)%R.
Proof.
  unfold degenerate_fov.
  destruct (Rle_dec fovy 0) as [H0 | H0]; [tauto |].
  destruct (Rle_dec PI fovy) as [Hp | Hp]; [tauto |].
  split; [discriminate | tauto].
Qed.

Lemma degenerate_fov_false (fovy : R) :
  degenerate_fov fovy = false <-> (0 < fovy < PI)%R.
Proof.
  unfold degenerate_fov.
  destruct (Rle_dec fovy 0) as [H0 | H0]; [split; [discriminate | lra] |].
  destruct (Rle_dec PI fovy) as [Hp | Hp]; [split; [discriminate | lra] |].
  split; [lra | reflexivity].
Qed.

Lemma CameraState_new_fov_accepted :
  degenerate_fov (mFOVY CameraState_new) = false.
Proof.
  apply degenerate_fov_false. simpl. unfold DegreesToRadians, JPH_PI.
  pose proof PI_RGT_0. lra.
Qed.

(** ** Wrap-around of the index does not show modulo the pipeline depth *)

Lemma advance_index (i : Z) :
  uint_add i 1 mod cFrameCount = (i + 1) mod cFrameCount.
Proof.
  unfold uint_add, uint_modulus, cFrameCount.
  apply Z.mod_mod_divide. exists (2 ^ 31). reflexivity.
Qed.

Section LifecycleFacts.

Context {Frustum : Type} {FM : FrameMath Frustum}.

Implicit Types (c : Controller Frustum) (r : Renderer Frustum).

Lemma BeginFrame_in_frame c cam ws :
  mInFrame (rnd c) = true -> BeginFrame cam ws c = (Err AlreadyInFrame, c).
Proof. intros H. unfold_calls. rewrite H. reflexivity. Qed.

Lemma BeginFrame_degenerate c cam ws :
  mInFrame (rnd c) = false -> degenerate_fov (mFOVY cam) = true ->
  BeginFrame cam ws c = (Err InvalidCameraConfig, c).
Proof.
  intros H Hd. unfold_calls. rewrite H.
  destruct (next_window_size c) as [w h].
  unfold ComputeCameraFrustum. rewrite Hd. reflexivity.
Qed.

(** What a successful BeginFrame leaves behind, member by member. *)
Lemma BeginFrame_idle c cam ws :
  mInFrame (rnd c) = false -> degenerate_fov (mFOVY cam) = false ->
  let c' := after (BeginFrame cam ws) c in
  result (BeginFrame cam ws) c = Ok tt /\
  mInFrame (rnd c') = true /\
  mFrameIndex (rnd c') = nextFrameIndex c /\
  (mWindowWidth (rnd c'), mWindowHeight (rnd c')) = next_window_size c /\
  mCameraState (rnd c') = cam /\
  mCameraFrustum (rnd c') =
    PerspectiveFrustum cam (fst (next_window_size c)) (snd (next_window_size c)) /\
  mBaseOffset (rnd c') = mBaseOffset (rnd c) /\
  mPerspectiveYSign (rnd c') = mPerspectiveYSign (rnd c) /\
  queuedResize c' = None /\
  nextFrameIndex c' = (nextFrameIndex c + 1) mod cFrameCount.
Proof.
  intros H Hd. unfold_calls. rewrite H.
  destruct (next_window_size c) as [w h].
  unfold ComputeCameraFrustum. rewrite Hd.
  destruct (BuildConstantBuffers _ _ _ _ _ _ _ _) as [[vs vso] ps].
  simpl. rewrite advance_index. repeat split.
Qed.

Lemma EndFrame_idle c :
  mInFrame (rnd c) = false -> EndFrame c = (Err NotInFrame, c).
Proof. intros H. unfold_calls. rewrite H. reflexivity. Qed.

Lemma EndFrame_in_frame c :
  mInFrame (rnd c) = true ->
  EndFrame c = (Ok tt, {| rnd := set_in_frame false (rnd c);
                          queuedResize := queuedResize c;
                          nextFrameIndex := nextFrameIndex c |}).
Proof. intros H. unfold_calls. rewrite H. reflexivity. Qed.

Lemma OnWindowResize_in_frame c w h :
  mInFrame (rnd c) = true ->
  OnWindowResize w h c = (Ok tt, {| rnd := rnd c;
                                    queuedResize := Some (w, h);
                                    nextFrameIndex := nextFrameIndex c |}).
Proof. intros H. unfold_calls. rewrite H. reflexivity. Qed.

Lemma OnWindowResize_idle c w h :
  mInFrame (rnd c) = false ->
  OnWindowResize w h c =
    (Ok tt, {| rnd := set_window_size w h (rnd c);
               queuedResize := None;
               nextFrameIndex := nextFrameIndex c |}).
Proof. intros H. unfold_calls. rewrite H. reflexivity. Qed.

(** A const accessor leaves the state alone. *)
Lemma query_after {A : Type} (f : Renderer Frustum -> outcome A) c :
  after (query f) c = c.
Proof. unfold_calls. destruct (f (rnd c)); reflexivity. Qed.


End LifecycleFacts.

(** ** Construction *)

(** C9: a default-constructed CameraState sits at the zero vector, looks
    along (0, 0, -1) with up (0, 1, 0), and has a vertical field of view of
    70 degrees converted to radians; it is the camera of the specification's
    scenario. *)
Theorem CameraState_new_is_scenario_camera :
  mPos CameraState_new = RVec3_sZero /\
  RVec3_sZero = mkRVec3 0 0 0 /\
  mForward CameraState_new = mkVec3 0 0 (-1) /\
  mUp CameraState_new = mkVec3 0 1 0 /\
  mFOVY CameraState_new = DegreesToRadians 70 /\
  DegreesToRadians 70 = (70 * PI / 180)%R /\
  CameraState_new = scenario_camera.
Proof.
  assert (Hfov : DegreesToRadians 70 = (70 * PI / 180)%R).
  { unfold DegreesToRadians, JPH_PI. field. }
  repeat split; try reflexivity; try exact Hfov.
  unfold CameraState_new, scenario_camera, RVec3_sZero.
  rewrite Hfov. reflexivity.
Qed.

(** The default camera has forward and up orthogonal, hence not parallel. *)
Lemma CameraState_new_not_parallel :
  cross (mForward CameraState_new) (mUp CameraState_new) <> Vec3_zero.
Proof.
  unfold cross, Vec3_zero. simpl. intros H.
  injection H as Hx _ _. lra.
Qed.

(** C8: the pipeline depth is the constant 2, the shadow map is the constant
    4096 by 4096, and a constructed Renderer reports a window of 1920 by
    1080; the first two are constants of the class and no part of its
    state. *)
Theorem configuration_constants :
  cFrameCount = 2 /\
  cShadowMapSize = 4096 /\
  ShadowMapDimensions = (4096, 4096) /\
  forall (Frustum : Type) (u : Indeterminate Frustum),
    GetWindowWidth (Renderer_new u) = 1920 /\
    GetWindowHeight (Renderer_new u) = 1080.
Proof. repeat split. Qed.

(** C10: a freshly constructed Renderer is idle: the in-frame flag is false,
    the frame index is 0, the base offset is the zero vector, the
    perspective Y sign is 1, and every frame-scoped accessor faults. *)
Theorem Renderer_new_is_idle (Frustum : Type) (u : Indeterminate Frustum) :
  mInFrame (Renderer_new u) = false /\
  mFrameIndex (Renderer_new u) = 0 /\
  GetBaseOffset (Renderer_new u) = RVec3_sZero /\
  mPerspectiveYSign (Renderer_new u) = 1%R /\
  GetCameraState (Renderer_new u) = AssertFailed /\
  GetCameraFrustum (Renderer_new u) = AssertFailed /\
  GetLightFrustum (Renderer_new u) = AssertFailed /\
  GetCurrentFrameIndex (Renderer_new u) = AssertFailed.
Proof. repeat split. Qed.

(** ** Frame-scoped accessors *)

(** C1: while the in-frame flag is clear, GetCameraState, GetCameraFrustum,
    GetLightFrustum and GetCurrentFrameIndex all end in the assertion
    failure and return no value; while it is set, each returns the member
    it reads. *)
Theorem frame_scoped_accessors_guarded (Frustum : Type) (r : Renderer Frustum) :
  (mInFrame r = false ->
     GetCameraState r = AssertFailed /\
     GetCameraFrustum r = AssertFailed /\
     GetLightFrustum r = AssertFailed /\
     GetCurrentFrameIndex r = AssertFailed) /\
  (mInFrame r = true ->
     GetCameraState r = Ok (mCameraState r) /\
     GetCameraFrustum r = Ok (mCameraFrustum r) /\
     GetLightFrustum r = Ok (mLightFrustum r) /\
     GetCurrentFrameIndex r = Ok (mFrameIndex r)).
Proof.
  unfold GetCameraState, GetCameraFrustum, GetLightFrustum, GetCurrentFrameIndex, JPH_ASSERT.
  split; intros ->; repeat split.
Qed.

Lemma frame_scoped_accessors_guarded_witness :
  (GetCameraState (Renderer_new Sample.unset) = AssertFailed /\
   GetCameraFrustum (Renderer_new Sample.unset) = AssertFailed /\
   GetLightFrustum (Renderer_new Sample.unset) = AssertFailed /\
   GetCurrentFrameIndex (Renderer_new Sample.unset) = AssertFailed) /\
  (GetCameraState (rnd Sample.in_frame) = Ok CameraState_new /\
   GetCameraFrustum (rnd Sample.in_frame) = Ok Sample.Unset /\
   GetLightFrustum (rnd Sample.in_frame) = Ok Sample.Unset /\
   GetCurrentFrameIndex (rnd Sample.in_frame) = Ok 0).
Proof.
  split.
  - exact (proj1 (frame_scoped_accessors_guarded _ (Renderer_new Sample.unset)) eq_refl).
  - exact (proj2 (frame_scoped_accessors_guarded _ (rnd Sample.in_frame)) eq_refl).
Defined.

(** ** BeginFrame and EndFrame *)

(** C2: BeginFrame inside a frame fails with AlreadyInFrame and leaves the
    state as it was; EndFrame outside a frame fails with NotInFrame; from an
    idle state, BeginFrame with an accepted camera succeeds and sets the
    in-frame flag, a second BeginFrame then fails with AlreadyInFrame, and
    the matching EndFrame succeeds and clears the flag. *)
Theorem BeginFrame_EndFrame_nesting
    (Frustum : Type) (FM : FrameMath Frustum) (c : Controller Frustum)
    (cam : CameraState) (ws : R) :
  (mInFrame (rnd c) = true -> BeginFrame cam ws c = (Err AlreadyInFrame, c)) /\
  (mInFrame (rnd c) = false -> EndFrame c = (Err NotInFrame, c)) /\
  (mInFrame (rnd c) = false -> degenerate_fov (mFOVY cam) = false ->
     let c1 := after (BeginFrame cam ws) c in
     let c2 := after EndFrame c1 in
     result (BeginFrame cam ws) c = Ok tt /\
     mInFrame (rnd c1) = true /\
     (forall cam' ws', BeginFrame cam' ws' c1 = (Err AlreadyInFrame, c1)) /\
     result EndFrame c1 = Ok tt /\
     mInFrame (rnd c2) = false /\
     EndFrame c2 = (Err NotInFrame, c2)).
Proof.
  split; [apply BeginFrame_in_frame |].
  split; [apply EndFrame_idle |].
  intros Hidle Hfov c1 c2.
  destruct (BeginFrame_idle c cam ws Hidle Hfov) as (Hres & Hin & _).
  fold c1 in Hin.
  assert (Hend : EndFrame c1 =
            (Ok tt, {| rnd := set_in_frame false (rnd c1);
                       queuedResize := queuedResize c1;
                       nextFrameIndex := nextFrameIndex c1 |}))
    by (apply EndFrame_in_frame; exact Hin).
  assert (Hout : mInFrame (rnd c2) = false)
    by (unfold c2, after; rewrite Hend; reflexivity).
  repeat split.
  - exact Hres.
  - exact Hin.
  - intros cam' ws'. apply BeginFrame_in_frame. exact Hin.
  - unfold result. rewrite Hend. reflexivity.
  - exact Hout.
  - apply EndFrame_idle. exact Hout.
Qed.

Lemma BeginFrame_EndFrame_nesting_witness :
  BeginFrame CameraState_new 1 Sample.in_frame = (Err AlreadyInFrame, Sample.in_frame) /\
  EndFrame Sample.fresh = (Err NotInFrame, Sample.fresh) /\
  mInFrame (rnd (after (BeginFrame CameraState_new 1) Sample.fresh)) = true /\
  mInFrame (rnd (after EndFrame (after (BeginFrame CameraState_new 1) Sample.fresh))) = false.
Proof.
  split; [| split].
  - exact (proj1 (BeginFrame_EndFrame_nesting _ _ Sample.in_frame CameraState_new 1) eq_refl).
  - exact (proj1 (proj2 (BeginFrame_EndFrame_nesting _ _ Sample.fresh CameraState_new 1)) eq_refl).
  - pose proof (BeginFrame_EndFrame_nesting _ _ Sample.fresh CameraState_new 1) as (_ & _ & H).
    specialize (H eq_refl CameraState_new_fov_accepted).
    cbv zeta in H. destruct H as (_ & H1 & _ & _ & H2 & _).
    split; [exact H1 | exact H2].
Defined.

(** Between a successful BeginFrame and its EndFrame the accessors return
    what BeginFrame stored; after the EndFrame they fault again. *)
Lemma accessors_within_frame
    (Frustum : Type) (FM : FrameMath Frustum) (c : Controller Frustum)
    (cam : CameraState) (ws : R) :
  mInFrame (rnd c) = false -> degenerate_fov (mFOVY cam) = false ->
  let c1 := after (BeginFrame cam ws) c in
  let c2 := after EndFrame c1 in
  GetCameraState (rnd c1) = Ok cam /\
  GetCurrentFrameIndex (rnd c1) = Ok (nextFrameIndex c) /\
  GetCameraFrustum (rnd c1) = Ok (mCameraFrustum (rnd c1)) /\
  GetLightFrustum (rnd c1) = Ok (mLightFrustum (rnd c1)) /\
  GetCameraState (rnd c2) = AssertFailed /\
  GetCurrentFrameIndex (rnd c2) = AssertFailed /\
  GetCameraFrustum (rnd c2) = AssertFailed /\
  GetLightFrustum (rnd c2) = AssertFailed.
Proof.
  intros Hidle Hfov c1 c2.
  destruct (BeginFrame_idle c cam ws Hidle Hfov) as (_ & Hin & Hidx & _ & Hcam & _).
  fold c1 in Hin, Hidx, Hcam.
  assert (Hout : mInFrame (rnd c2) = false).
  { unfold c2, after. rewrite (EndFrame_in_frame c1 Hin). reflexivity. }
  unfold GetCameraState, GetCurrentFrameIndex, GetCameraFrustum, GetLightFrustum, JPH_ASSERT.
  rewrite Hin, Hout, Hidx, Hcam. repeat split.
Qed.

(** ** Frame index *)

Section FrameIndex.

Context {Frustum : Type} {FM : FrameMath Frustum}.

Implicit Types (c : Controller Frustum) (fs : list (CameraState * R)).







End FrameIndex.




(** ** Degenerate field of view *)

(** C4: a camera whose vertical field of view is at most 0 or at least pi is
    rejected with InvalidCameraConfig where its frustum is constructed,
    whatever the window size; BeginFrame from an idle state fails with that
    error, and from any state it returns no success and leaves every member
    as it was, so no clamped value is stored. *)
Theorem degenerate_fov_rejected
    (Frustum : Type) (FM : FrameMath Frustum) (cam : CameraState) :
  (mFOVY cam <= 0 \/ PI <= mFOVY cam)%R ->
  (forall w h, ComputeCameraFrustum cam w h = Err InvalidCameraConfig) /\
  (forall ws (c : Controller Frustum),
     mInFrame (rnd c) = false ->
     BeginFrame cam ws c = (Err InvalidCameraConfig, c)) /\
  (forall ws (c : Controller Frustum),
     result (BeginFrame cam ws) c <> Ok tt /\ after (BeginFrame cam ws) c = c).
Proof.
  intros Hdeg. apply degenerate_fov_true in Hdeg.
  split; [| split].
  - intros w h. unfold ComputeCameraFrustum. rewrite Hdeg. reflexivity.
  - intros ws c Hidle. apply BeginFrame_degenerate; assumption.
  - intros ws c. unfold result, after.
    destruct (mInFrame (rnd c)) eqn:Hflag.
    + rewrite (BeginFrame_in_frame c cam ws Hflag). split; [discriminate | reflexivity].
    + rewrite (BeginFrame_degenerate c cam ws Hflag Hdeg). split; [discriminate | reflexivity].
Qed.

Lemma degenerate_fov_rejected_witness :
  (mFOVY Sample.flat_camera <= 0 \/ PI <= mFOVY Sample.flat_camera)%R /\
  ComputeCameraFrustum (Frustum := Sample.Frustum) Sample.flat_camera 1920 1080
    = Err InvalidCameraConfig /\
  BeginFrame Sample.flat_camera 1 Sample.fresh = (Err InvalidCameraConfig, Sample.fresh).
Proof.
  assert (Hdeg : (mFOVY Sample.flat_camera <= 0 \/ PI <= mFOVY Sample.flat_camera)%R).
  { left. simpl. lra. }
  split; [exact Hdeg |].
  destruct (degenerate_fov_rejected _ Sample.math Sample.flat_camera Hdeg) as (Hf & Hb & _).
  split; [apply Hf | apply Hb; reflexivity].
Defined.

(** ** Base offset *)

Section BaseOffset.

Context {Frustum : Type} {FM : FrameMath Frustum}.

Implicit Types (c : Controller Frustum) (ks : list Call).

Lemma BeginFrame_keeps_offset c cam ws :
  mBaseOffset (rnd (after (BeginFrame cam ws) c)) = mBaseOffset (rnd c).
Proof.
  destruct (mInFrame (rnd c)) eqn:Hflag.
  - unfold after. rewrite (BeginFrame_in_frame c cam ws Hflag). reflexivity.
  - destruct (degenerate_fov (mFOVY cam)) eqn:Hfov.
    + unfold after. rewrite (BeginFrame_degenerate c cam ws Hflag Hfov). reflexivity.
    + destruct (BeginFrame_idle c cam ws Hflag Hfov) as (_ & _ & _ & _ & _ & _ & H & _).
      exact H.
Qed.

(** Every call but SetBaseOffset leaves the base offset alone, whether it
    succeeds or fails. *)
Lemma exec_keeps_offset k c :
  is_SetBaseOffset k = false ->
  GetBaseOffset (rnd (exec k c)) = GetBaseOffset (rnd c).
Proof.
  intros Hk. unfold GetBaseOffset.
  destruct k as [cam ws | | w h | v | | | | | | |]; simpl exec;
    try discriminate Hk; try (rewrite query_after; reflexivity).
  - apply BeginFrame_keeps_offset.
  - unfold_calls. destruct (mInFrame (rnd c)); reflexivity.
  - unfold_calls. destruct (mInFrame (rnd c)); reflexivity.
Qed.

Lemma run_keeps_offset ks :
  forall c,
    none_of is_SetBaseOffset ks = true ->
    GetBaseOffset (rnd (run ks c)) = GetBaseOffset (rnd c).
Proof.
  induction ks as [| k ks IH]; intros c Hks; simpl; [reflexivity |].
  unfold none_of in Hks. simpl in Hks.
  apply andb_true_iff in Hks. destruct Hks as (Hk & Hks).
  rewrite IH by exact Hks.
  apply exec_keeps_offset. apply negb_true_iff. exact Hk.
Qed.

End BaseOffset.

(** C6: GetBaseOffset after SetBaseOffset(v) returns v, in a frame or out of
    one, and it still returns v after any sequence of other calls
    (BeginFrame, EndFrame, OnWindowResize, the accessors), failed or not,
    that contains no further SetBaseOffset. *)
Theorem base_offset_set_get_persists
    (Frustum : Type) (FM : FrameMath Frustum) (c : Controller Frustum)
    (v : RVec3) (ks : list Call) :
  none_of is_SetBaseOffset ks = true ->
  GetBaseOffset (SetBaseOffset v (rnd c)) = v /\
  GetBaseOffset (rnd (exec (CallSetBaseOffset v) c)) = v /\
  GetBaseOffset (rnd (run (CallSetBaseOffset v :: ks) c)) = v.
Proof.
  intros Hks. repeat split.
  simpl run. rewrite run_keeps_offset by exact Hks. reflexivity.
Qed.

Lemma base_offset_set_get_persists_witness :
  GetBaseOffset
    (rnd (run (CallSetBaseOffset (mkRVec3 5 6 7)
                 :: frames [(CameraState_new, 1%R); (CameraState_new, 1%R)]
                 ++ [CallOnWindowResize 800 600; CallEndFrame])
              Sample.fresh))
  = mkRVec3 5 6 7.
Proof.
  apply (base_offset_set_get_persists _ _ Sample.fresh (mkRVec3 5 6 7)
           (frames [(CameraState_new, 1%R); (CameraState_new, 1%R)]
              ++ [CallOnWindowResize 800 600; CallEndFrame])).
  reflexivity.
Defined.

(** ** Resize during a frame *)

Section ResizeInFrame.

Context {Frustum : Type} {FM : FrameMath Frustum}.

Implicit Types (c : Controller Frustum) (ks : list Call).

(** Inside a frame, a call other than EndFrame keeps the frame open and
    leaves what the frame works with alone; unless it is a resize, it also
    leaves the queue alone. *)
Lemma exec_in_frame k c :
  mInFrame (rnd c) = true -> is_EndFrame k = false ->
  mInFrame (rnd (exec k c)) = true /\
  in_flight (rnd (exec k c)) = in_flight (rnd c) /\
  (is_OnWindowResize k = false -> queuedResize (exec k c) = queuedResize c).
Proof.
  intros Hin Hk.
  destruct k as [cam ws | | w h | v | | | | | | |]; simpl exec;
    try discriminate Hk; try (rewrite query_after; auto).
  - unfold after. rewrite (BeginFrame_in_frame c cam ws Hin). simpl. auto.
  - unfold after. rewrite (OnWindowResize_in_frame c w h Hin). simpl.
    repeat split; [exact Hin | discriminate].
  - unfold_calls. simpl. auto.
Qed.

Lemma run_in_frame ks :
  forall c,
    mInFrame (rnd c) = true -> none_of is_EndFrame ks = true ->
    mInFrame (rnd (run ks c)) = true /\
    in_flight (rnd (run ks c)) = in_flight (rnd c) /\
    (none_of is_OnWindowResize ks = true -> queuedResize (run ks c) = queuedResize c).
Proof.
  induction ks as [| k ks IH]; intros c Hin Hks; simpl run; [auto |].
  unfold none_of in Hks. simpl in Hks.
  apply andb_true_iff in Hks. destruct Hks as (Hk & Hks).
  apply negb_true_iff in Hk.
  destruct (exec_in_frame k c Hin Hk) as (Hin1 & Hfl1 & Hq1).
  destruct (IH _ Hin1 Hks) as (Hin2 & Hfl2 & Hq2).
  repeat split.
  - exact Hin2.
  - rewrite Hfl2. exact Hfl1.
  - intros Hnr. unfold none_of in Hnr. simpl in Hnr.
    apply andb_true_iff in Hnr. destruct Hnr as (Hnk & Hnr).
    apply negb_true_iff in Hnk.
    rewrite (Hq2 Hnr). apply Hq1. exact Hnk.
Qed.

Lemma in_flight_window (r r' : Renderer Frustum) :
  in_flight r' = in_flight r ->
  GetWindowWidth r' = GetWindowWidth r /\ GetWindowHeight r' = GetWindowHeight r.
Proof. unfold in_flight. intros H. injection H. auto. Qed.

Lemma EndFrame_keeps_in_flight c :
  in_flight (rnd (after EndFrame c)) = in_flight (rnd c) /\
  queuedResize (after EndFrame c) = queuedResize c.
Proof. unfold_calls. destruct (mInFrame (rnd c)); simpl; auto. Qed.

End ResizeInFrame.

(** C5: a call of OnWindowResize inside a frame succeeds, changes no member
    of the Renderer (window size, camera, frustums, frame index and buffers
    are as before) and queues the new size.  GetWindowWidth and
    GetWindowHeight keep returning the old size through every later call
    of the frame and through its EndFrame.  If no further resize arrived,
    the next BeginFrame applies the queued size and builds the camera
    frustum against it. *)
Theorem resize_in_frame_is_deferred
    (Frustum : Type) (FM : FrameMath Frustum) (c : Controller Frustum)
    (w h : Z) (ks : list Call) :
  mInFrame (rnd c) = true ->
  none_of is_EndFrame ks = true ->
  let c1 := after (OnWindowResize w h) c in
  let c2 := run ks c1 in
  let c3 := after EndFrame c2 in
  result (OnWindowResize w h) c = Ok tt /\
  rnd c1 = rnd c /\
  queuedResize c1 = Some (w, h) /\
  in_flight (rnd c2) = in_flight (rnd c) /\
  (GetWindowWidth (rnd c2) = GetWindowWidth (rnd c) /\
   GetWindowHeight (rnd c2) = GetWindowHeight (rnd c)) /\
  (GetWindowWidth (rnd c3) = GetWindowWidth (rnd c) /\
   GetWindowHeight (rnd c3) = GetWindowHeight (rnd c)) /\
  (none_of is_OnWindowResize ks = true ->
   forall cam ws,
     degenerate_fov (mFOVY cam) = false ->
     let c4 := after (BeginFrame cam ws) c3 in
     GetWindowWidth (rnd c4) = w /\
     GetWindowHeight (rnd c4) = h /\
     GetCameraFrustum (rnd c4) = Ok (PerspectiveFrustum cam w h)).
Proof.
  intros Hin Hks c1 c2 c3.
  assert (Hc1 : c1 = {| rnd := rnd c;
                        queuedResize := Some (w, h);
                        nextFrameIndex := nextFrameIndex c |}).
  { unfold c1, after. rewrite (OnWindowResize_in_frame c w h Hin). reflexivity. }
  assert (Hin1 : mInFrame (rnd c1) = true) by (rewrite Hc1; exact Hin).
  destruct (run_in_frame ks c1 Hin1 Hks) as (Hin2 & Hfl2 & Hq2).
  fold c2 in Hin2, Hfl2, Hq2.
  assert (Hfl : in_flight (rnd c2) = in_flight (rnd c)).
  { rewrite Hfl2, Hc1. reflexivity. }
  destruct (EndFrame_keeps_in_flight c2) as (Hfl3 & Hq3). fold c3 in Hfl3, Hq3.
  assert (Hidle3 : mInFrame (rnd c3) = false).
  { unfold c3, after. rewrite (EndFrame_in_frame c2 Hin2). reflexivity. }
  split; [unfold result; rewrite (OnWindowResize_in_frame c w h Hin); reflexivity |].
  split; [rewrite Hc1; reflexivity |].
  split; [rewrite Hc1; reflexivity |].
  split; [exact Hfl |].
  split; [apply (in_flight_window _ _ Hfl) |].
  split; [apply (in_flight_window (rnd c) (rnd c3)); rewrite Hfl3; exact Hfl |].
  intros Hnr cam ws Hfov c4.
  destruct (BeginFrame_idle c3 cam ws Hidle3 Hfov) as (_ & Hin4 & _ & Hwh & _ & Hfr & _).
  fold c4 in Hin4, Hwh, Hfr.
  assert (Hnext : next_window_size c3 = (w, h)).
  { unfold next_window_size. rewrite Hq3, (Hq2 Hnr), Hc1. reflexivity. }
  rewrite Hnext in Hwh, Hfr. injection Hwh as Hw Hh.
  split; [exact Hw |]. split; [exact Hh |].
  unfold GetCameraFrustum, JPH_ASSERT. rewrite Hin4, Hfr. reflexivity.
Qed.

Lemma resize_in_frame_is_deferred_witness :
  (GetWindowWidth (rnd Sample.resized_in_frame) = 1920 /\
   GetWindowHeight (rnd Sample.resized_in_frame) = 1080) /\
  (GetWindowWidth (rnd (after EndFrame Sample.resized_in_frame)) = 1920 /\
   GetWindowHeight (rnd (after EndFrame Sample.resized_in_frame)) = 1080) /\
  GetWindowWidth
    (rnd (after (BeginFrame CameraState_new 1) (after EndFrame Sample.resized_in_frame)))
    = 800 /\
  GetWindowHeight
    (rnd (after (BeginFrame CameraState_new 1) (after EndFrame Sample.resized_in_frame)))
    = 600.
Proof.
  pose proof (resize_in_frame_is_deferred _ Sample.math Sample.in_frame 800 600
                Sample.calls_after_resize eq_refl eq_refl) as H.
  cbv zeta in H. fold Sample.resized_in_frame in H.
  destruct H as (_ & _ & _ & _ & Hframe & Hend & Hnext).
  specialize (Hnext eq_refl CameraState_new 1%R CameraState_new_fov_accepted).
  destruct Hnext as (Hw & Hh & _).
  split; [exact Hframe |]. split; [exact Hend |]. split; [exact Hw | exact Hh].
Defined.

(** ** Numbers of the scenario *)

(** The default window has aspect 16/9, within a thousandth of 1.778. *)
Lemma default_window_aspect (Frustum : Type) (u : Indeterminate Frustum) :
  let aspect := (IZR (GetWindowWidth (Renderer_new u))
                 / IZR (GetWindowHeight (Renderer_new u)))%R in
  aspect = (16 / 9)%R /\ (Rabs (aspect - 1778 / 1000) < 1 / 1000)%R.
Proof.
  simpl. split; [field |].
  apply Rabs_def1; lra.
Qed.

(** Half of the default vertical field of view is 35 degrees. *)
Lemma default_vertical_half_angle :
  (mFOVY CameraState_new / 2)%R = DegreesToRadians 35.
Proof. simpl. unfold DegreesToRadians. field. Qed.


(** * Inline member functions: further properties *)

Section InlineFacts.

Context {Frustum : Type}.

Implicit Types (r : Renderer Frustum) (k : InlineCall) (ks : list InlineCall).

Lemma SetBaseOffset_current r : SetBaseOffset (GetBaseOffset r) r = r.
Proof. destruct r; reflexivity. Qed.

Lemma SetBaseOffset_overwrite (v1 v2 : RVec3) r :
  SetBaseOffset v2 (SetBaseOffset v1 r) = SetBaseOffset v2 r.
Proof. reflexivity. Qed.

(** A frame-scoped accessor called outside a frame stops with the failed
    assertion. *)
Lemma inline_call_scoped_idle k r :
  is_frame_scoped k = true -> mInFrame r = false ->
  inline_call k r = (AssertFailed, r).
Proof.
  intros Hk Hidle.
  destruct k; try discriminate Hk;
    cbv [inline_call bind get lift ret GetCameraState GetCameraFrustum
         GetLightFrustum GetCurrentFrameIndex JPH_ASSERT];
    rewrite Hidle; reflexivity.
Qed.

(** Every other call returns, and moves nothing but the base offset. *)
Lemma inline_call_returns k r :
  is_frame_scoped k = false \/ mInFrame r = true ->
  exists v,
    inline_call k r = (Ok v, SetBaseOffset (last_offset [k] (GetBaseOffset r)) r).
Proof.
  intros Hk.
  destruct k; simpl last_offset; rewrite ?SetBaseOffset_current;
    try (eexists; reflexivity).
  all: destruct Hk as [Hk | Hin]; [discriminate Hk |];
    cbv [inline_call bind get lift ret GetCameraState GetCameraFrustum
         GetLightFrustum GetCurrentFrameIndex JPH_ASSERT];
    rewrite Hin; eexists; reflexivity.
Qed.

Lemma run_inline_cons k ks r :
  run_inline (k :: ks) r =
    match inline_call k r with
    | (Ok v, r1) =>
        match run_inline ks r1 with
        | (Ok vs, r2) => (Ok (v :: vs), r2)
        | (Err e, r2) => (Err e, r2)
        | (AssertFailed, r2) => (AssertFailed, r2)
        end
    | (Err e, r1) => (Err e, r1)
    | (AssertFailed, r1) => (AssertFailed, r1)
    end.
Proof.
  cbn [run_inline]. unfold bind at 1.
  destruct (inline_call k r) as [[v | e |] r1]; reflexivity.
Qed.

Lemma last_offset_cons k ks (d : RVec3) :
  last_offset (k :: ks) d = last_offset ks (last_offset [k] d).
Proof. destruct k; reflexivity. Qed.

(** A sequence that meets no failing assertion returns one value per call
    and leaves the base offset at the last value set. *)
Lemma run_inline_returns ks :
  forall r,
    mInFrame r = true \/ no_frame_scoped ks = true ->
    exists vs,
      run_inline ks r = (Ok vs, SetBaseOffset (last_offset ks (GetBaseOffset r)) r) /\
      length vs = length ks.
Proof.
  induction ks as [| k ks IH]; intros r Hok.
  - exists []. simpl. rewrite SetBaseOffset_current. split; reflexivity.
  - assert (Hk : is_frame_scoped k = false \/ mInFrame r = true).
    { destruct Hok as [Hin | Hns]; [right; exact Hin | left].
      unfold no_frame_scoped in Hns. simpl in Hns.
      apply andb_true_iff in Hns. destruct Hns as (Hk & _).
      apply negb_true_iff. exact Hk. }
    destruct (inline_call_returns k r Hk) as (v & Hcall).
    set (r1 := SetBaseOffset (last_offset [k] (GetBaseOffset r)) r) in *.
    assert (Hok1 : mInFrame r1 = true \/ no_frame_scoped ks = true).
    { destruct Hok as [Hin | Hns]; [left; exact Hin | right].
      unfold no_frame_scoped in Hns. simpl in Hns.
      apply andb_true_iff in Hns. destruct Hns as (_ & Hks). exact Hks. }
    destruct (IH r1 Hok1) as (vs & Hrun & Hlen).
    exists (v :: vs). rewrite run_inline_cons, Hcall, Hrun.
    split; [| simpl; rewrite Hlen; reflexivity].
    rewrite (last_offset_cons k ks). reflexivity.
Qed.

(** Outside a frame, a sequence that calls a frame-scoped accessor stops
    with the failed assertion. *)
Lemma run_inline_faults ks :
  forall r,
    mInFrame r = false -> no_frame_scoped ks = false ->
    result (run_inline ks) r = AssertFailed.
Proof.
  induction ks as [| k ks IH]; intros r Hidle Hsc; [discriminate Hsc |].
  unfold result. rewrite run_inline_cons.
  destruct (is_frame_scoped k) eqn:Hk.
  - rewrite (inline_call_scoped_idle k r Hk Hidle). reflexivity.
  - destruct (inline_call_returns k r (or_introl Hk)) as (v & Hcall).
    rewrite Hcall.
    set (r1 := SetBaseOffset (last_offset [k] (GetBaseOffset r)) r).
    assert (Hsc1 : no_frame_scoped ks = false).
    { unfold no_frame_scoped in Hsc. simpl in Hsc. rewrite Hk in Hsc. exact Hsc. }
    specialize (IH r1 Hidle Hsc1). unfold result in IH.
    destruct (run_inline ks r1) as [[vs | e |] r2]; simpl in IH;
      try discriminate IH; reflexivity.
Qed.

(** Whatever its outcome, a sequence leaves the renderer as it was up to
    the base offset. *)
Lemma run_inline_state ks :
  forall r, exists v, after (run_inline ks) r = SetBaseOffset v r.
Proof.
  induction ks as [| k ks IH]; intros r.
  - exists (GetBaseOffset r). unfold after. simpl. symmetry. apply SetBaseOffset_current.
  - unfold after. rewrite run_inline_cons.
    destruct (is_frame_scoped k && negb (mInFrame r)) eqn:Hstop.
    + apply andb_true_iff in Hstop. destruct Hstop as (Hk & Hidle).
      apply negb_true_iff in Hidle.
      rewrite (inline_call_scoped_idle k r Hk Hidle).
      exists (GetBaseOffset r). simpl. symmetry. apply SetBaseOffset_current.
    + assert (Hk : is_frame_scoped k = false \/ mInFrame r = true).
      { apply andb_false_iff in Hstop. destruct Hstop as [Hk | Hin]; [left; exact Hk |].
        right. apply negb_false_iff. exact Hin. }
      destruct (inline_call_returns k r Hk) as (v & Hcall). rewrite Hcall.
      destruct (IH (SetBaseOffset (last_offset [k] (GetBaseOffset r)) r)) as (v' & Hst).
      unfold after in Hst. exists v'.
      destruct (run_inline ks _) as [[vs | e |] r2]; simpl in Hst |- *;
        rewrite Hst; reflexivity.
Qed.

End InlineFacts.

Section InlineSequences.

Context {Frustum : Type}.

Implicit Types (r : Renderer Frustum) (k : InlineCall) (ks : list InlineCall).

Lemma result_cons_returned k ks r (v : Returned Frustum) r1 :
  inline_call k r = (Ok v, r1) ->
  result (run_inline (k :: ks)) r =
    match result (run_inline ks) r1 with
    | Ok vs => Ok (v :: vs)
    | Err e => Err e
    | AssertFailed => AssertFailed
    end.
Proof.
  intros Hcall. unfold result. rewrite run_inline_cons, Hcall.
  destruct (run_inline ks r1) as [[vs | e |] r2]; reflexivity.
Qed.

(** Two renderers outside a frame with the same window size and base offset
    answer every sequence of inline calls alike. *)
Lemma idle_runs_agree ks :
  forall r1 r2,
    mInFrame r1 = false -> mInFrame r2 = false ->
    GetWindowWidth r1 = GetWindowWidth r2 ->
    GetWindowHeight r1 = GetWindowHeight r2 ->
    GetBaseOffset r1 = GetBaseOffset r2 ->
    result (run_inline ks) r1 = result (run_inline ks) r2.
Proof.
  induction ks as [| k ks IH]; intros r1 r2 Hi1 Hi2 Hw Hh Ho; [reflexivity |].
  destruct (is_frame_scoped k) eqn:Hk.
  - unfold result. rewrite !run_inline_cons.
    rewrite (inline_call_scoped_idle k r1 Hk Hi1), (inline_call_scoped_idle k r2 Hk Hi2).
    reflexivity.
  - destruct k; try discriminate Hk.
    + rewrite (result_cons_returned InlGetWindowWidth ks r1 (RetInt (GetWindowWidth r1)) r1 eq_refl).
      rewrite (result_cons_returned InlGetWindowWidth ks r2 (RetInt (GetWindowWidth r2)) r2 eq_refl).
      rewrite Hw, (IH r1 r2); auto.
    + rewrite (result_cons_returned InlGetWindowHeight ks r1 (RetInt (GetWindowHeight r1)) r1 eq_refl).
      rewrite (result_cons_returned InlGetWindowHeight ks r2 (RetInt (GetWindowHeight r2)) r2 eq_refl).
      rewrite Hh, (IH r1 r2); auto.
    + rewrite (result_cons_returned InlGetBaseOffset ks r1 (RetRVec3 (GetBaseOffset r1)) r1 eq_refl).
      rewrite (result_cons_returned InlGetBaseOffset ks r2 (RetRVec3 (GetBaseOffset r2)) r2 eq_refl).
      rewrite Ho, (IH r1 r2); auto.
    + rewrite (result_cons_returned (InlSetBaseOffset inOffset) ks r1 RetVoid (SetBaseOffset inOffset r1) eq_refl).
      rewrite (result_cons_returned (InlSetBaseOffset inOffset) ks r2 RetVoid (SetBaseOffset inOffset r2) eq_refl).
      rewrite (IH (SetBaseOffset inOffset r1) (SetBaseOffset inOffset r2)); auto.
Qed.

End InlineSequences.

(** X1: SetBaseOffset writes the base offset: GetBaseOffset then returns
    the value set, a second SetBaseOffset overwrites the first, the call
    leaves the renderer as it was exactly when the value set is the offset
    it already had, and setting an offset and then restoring the saved one
    gives back the renderer as it was. *)
Theorem SetBaseOffset_save_restore
    (Frustum : Type) (r : Renderer Frustum) (v1 v2 : RVec3) :
  GetBaseOffset (SetBaseOffset v1 r) = v1 /\
  GetBaseOffset (SetBaseOffset v2 (SetBaseOffset v1 r)) = v2 /\
  SetBaseOffset v2 (SetBaseOffset v1 r) = SetBaseOffset v2 r /\
  (SetBaseOffset v1 r = r <-> v1 = GetBaseOffset r) /\
  SetBaseOffset (GetBaseOffset r) (SetBaseOffset v1 r) = r.
Proof.
  split; [reflexivity |].
  split; [reflexivity |].
  split; [reflexivity |].
  split.
  - split.
    + intros H. apply (f_equal GetBaseOffset) in H. exact H.
    + intros ->. apply SetBaseOffset_current.
  - rewrite SetBaseOffset_overwrite. apply SetBaseOffset_current.
Qed.

(** X2: a sequence of inline calls returns one value per call when the
    renderer is inside a frame or the sequence calls no frame-scoped
    accessor; outside a frame a sequence that calls one stops with the
    failed assertion; no sequence ends in a recoverable error. *)
Theorem inline_sequence_completes_or_asserts
    (Frustum : Type) (ks : list InlineCall) (r : Renderer Frustum) :
  (mInFrame r = true \/ no_frame_scoped ks = true ->
     exists vs, result (run_inline ks) r = Ok vs /\ length vs = length ks) /\
  (mInFrame r = false -> no_frame_scoped ks = false ->
     result (run_inline ks) r = AssertFailed) /\
  (forall e, result (run_inline ks) r <> Err e).
Proof.
  assert (Hok : mInFrame r = true \/ no_frame_scoped ks = true ->
                exists vs, result (run_inline ks) r = Ok vs /\ length vs = length ks).
  { intros H. destruct (run_inline_returns ks r H) as (vs & Hrun & Hlen).
    exists vs. unfold result. rewrite Hrun. split; [reflexivity | exact Hlen]. }
  split; [exact Hok |].
  split; [apply run_inline_faults |].
  intros e He.
  destruct (mInFrame r) eqn:Hin.
  - destruct (Hok (or_introl eq_refl)) as (vs & Hvs & _). congruence.
  - destruct (no_frame_scoped ks) eqn:Hns.
    + destruct (Hok (or_intror eq_refl)) as (vs & Hvs & _). congruence.
    + rewrite (run_inline_faults ks r Hin Hns) in He. discriminate He.
Qed.

Lemma inline_sequence_completes_or_asserts_witness :
  (exists vs,
     result (run_inline [InlGetWindowWidth; InlSetBaseOffset (mkRVec3 1 2 3);
                         InlGetBaseOffset])
            (Renderer_new Sample.unset) = Ok vs /\ length vs = 3%nat) /\
  result (run_inline [InlGetWindowWidth; InlGetCameraFrustum; InlGetBaseOffset])
         (Renderer_new Sample.unset) = AssertFailed.
Proof.
  split.
  - exact (proj1 (inline_sequence_completes_or_asserts _
                    [InlGetWindowWidth; InlSetBaseOffset (mkRVec3 1 2 3); InlGetBaseOffset]
                    (Renderer_new Sample.unset))
                 (or_intror eq_refl)).
  - exact (proj1 (proj2 (inline_sequence_completes_or_asserts _
                    [InlGetWindowWidth; InlGetCameraFrustum; InlGetBaseOffset]
                    (Renderer_new Sample.unset)))
                 eq_refl eq_refl).
Defined.

(** X3: whatever a sequence of inline calls does, restoring the base offset
    afterwards gives back the renderer as it was, so the in-frame flag, the
    window size, the camera, the frustums, the frame index and the buffers
    are untouched; when the sequence ran to its end the base offset is the
    argument of its last SetBaseOffset, or unchanged without one. *)
Theorem inline_sequence_moves_only_offset
    (Frustum : Type) (ks : list InlineCall) (r : Renderer Frustum) :
  SetBaseOffset (GetBaseOffset r) (after (run_inline ks) r) = r /\
  (forall vs, result (run_inline ks) r = Ok vs ->
     GetBaseOffset (after (run_inline ks) r) = last_offset ks (GetBaseOffset r)).
Proof.
  split.
  - destruct (run_inline_state ks r) as (v & Hst). rewrite Hst.
    rewrite SetBaseOffset_overwrite. apply SetBaseOffset_current.
  - intros vs Hvs.
    destruct (mInFrame r) eqn:Hin.
    + destruct (run_inline_returns ks r (or_introl Hin)) as (vs' & Hrun & _).
      unfold after. rewrite Hrun. reflexivity.
    + destruct (no_frame_scoped ks) eqn:Hns.
      * destruct (run_inline_returns ks r (or_intror Hns)) as (vs' & Hrun & _).
        unfold after. rewrite Hrun. reflexivity.
      * rewrite (run_inline_faults ks r Hin Hns) in Hvs. discriminate Hvs.
Qed.

Lemma inline_sequence_moves_only_offset_witness :
  GetBaseOffset
    (after (run_inline [InlSetBaseOffset (mkRVec3 1 2 3); InlGetCurrentFrameIndex;
                        InlSetBaseOffset (mkRVec3 4 5 6); InlGetWindowHeight])
           (rnd Sample.in_frame))
  = mkRVec3 4 5 6.
Proof.
  apply (proj2 (inline_sequence_moves_only_offset _
                  [InlSetBaseOffset (mkRVec3 1 2 3); InlGetCurrentFrameIndex;
                   InlSetBaseOffset (mkRVec3 4 5 6); InlGetWindowHeight]
                  (rnd Sample.in_frame))
               [RetVoid; RetUInt 0; RetVoid; RetInt 1080]).
  reflexivity.
Defined.

(** X4: outside a frame the inline functions show nothing but the window
    size and the base offset: two renderers that agree on these return the
    same values, or stop at the same assertion, on every sequence of inline
    calls, whatever their camera, frustums, frame index and buffers hold. *)
Theorem idle_renderer_hides_frame_state
    (Frustum : Type) (ks : list InlineCall) (r1 r2 : Renderer Frustum) :
  mInFrame r1 = false -> mInFrame r2 = false ->
  GetWindowWidth r1 = GetWindowWidth r2 ->
  GetWindowHeight r1 = GetWindowHeight r2 ->
  GetBaseOffset r1 = GetBaseOffset r2 ->
  result (run_inline ks) r1 = result (run_inline ks) r2.
Proof. apply idle_runs_agree. Qed.

Lemma idle_renderer_hides_frame_state_witness :
  result (run_inline [InlGetWindowWidth; InlSetBaseOffset (mkRVec3 1 2 3);
                      InlGetBaseOffset; InlGetLightFrustum])
         (Renderer_new Sample.unset)
  = result (run_inline [InlGetWindowWidth; InlSetBaseOffset (mkRVec3 1 2 3);
                        InlGetBaseOffset; InlGetLightFrustum])
           (Renderer_new
              (mkIndeterminate (Sample.OfCamera Sample.flat_camera 8 8)
                               (Sample.OfLight 1 Sample.Unset)
                               Sample.zeroVS Sample.zeroVS Sample.zeroPS)).
Proof.
  apply (idle_renderer_hides_frame_state _
           [InlGetWindowWidth; InlSetBaseOffset (mkRVec3 1 2 3);
            InlGetBaseOffset; InlGetLightFrustum]
           (Renderer_new Sample.unset)
           (Renderer_new
              (mkIndeterminate (Sample.OfCamera Sample.flat_camera 8 8)
                               (Sample.OfLight 1 Sample.Unset)
                               Sample.zeroVS Sample.zeroVS Sample.zeroPS)));
    reflexivity.
Defined.

(** X5: the default camera is well formed: forward and up are unit vectors
    at a right angle, the right-hand direction forward x up is +X, and the
    vertical field of view lies strictly between 0 and pi/2. *)
Theorem CameraState_new_orthonormal :
  dot (mForward CameraState_new) (mForward CameraState_new) = 1%R /\
  dot (mUp CameraState_new) (mUp CameraState_new) = 1%R /\
  dot (mForward CameraState_new) (mUp CameraState_new) = 0%R /\
  cross (mForward CameraState_new) (mUp CameraState_new) = mkVec3 1 0 0 /\
  (0 < mFOVY CameraState_new < PI / 2)%R.
Proof.
  unfold dot, cross. simpl.
  repeat split; try lra.
  - f_equal; lra.
  - unfold DegreesToRadians, JPH_PI. pose proof PI_RGT_0. lra.
  - unfold DegreesToRadians, JPH_PI. pose proof PI_RGT_0. lra.
Qed.

(** X6: SetEventListener keeps one listener: after any number of
    registrations the listener is the last one registered (the original one
    when there was none), and the display, the window and the delete-window
    atom are those of before. *)
Theorem SetEventListener_keeps_last
    (Display Window Atom EventListener : Type)
    (ls : list EventListener) (m : X11Members Display Window Atom EventListener) :
  mEventListener (register_all ls m) = last ls (mEventListener m) /\
  GetDisplay (register_all ls m) = GetDisplay m /\
  GetWindow (register_all ls m) = GetWindow m /\
  mWmDeleteWindow (register_all ls m) = mWmDeleteWindow m.
Proof.
  assert (Hlast : forall (xs : list EventListener) x d, last (x :: xs) d = last xs x).
  { induction xs as [| a xs IHxs]; intros x d; [reflexivity |].
    change (last (x :: a :: xs) d) with (last (a :: xs) d).
    rewrite (IHxs a d), (IHxs a x). reflexivity. }
  revert m. induction ls as [| l ls IH]; intros m; [repeat split |].
  unfold register_all in *. simpl fold_left.
  destruct (IH (SetEventListener l m)) as (Hl & Hd & Hw & Ha).
  rewrite Hl, Hd, Hw, Ha, Hlast. repeat split.
Qed.
